(** * Recommendation scoring of learning_decision.py

    A shallow embedding of the two functions that carry the domain logic of
    the advisor, [analyze_learning_path] and
    [calculate_expected_effectiveness], together with the small part of the
    Python and NumPy run time they rely on, the values [main] computes from
    them and the texts and rows of the detailed report.

    - Python [str] values are modelled as [string], holding the UTF-8
      encoding of the text.  All literals of the program are complete
      UTF-8 sequences, so equality and substring search on the encoding
      agree with equality and substring search on the code points.
    - Python [int] is [Z].
    - Python [float] and NumPy [float64] are IEEE 754 binary64, modelled by
      the primitive type [float], whose operations round to nearest even as
      the hardware does.
    - An exception that leaves the function is a [Raise] result. *)

From Stdlib Require Import ZArith List String Bool Lia QArith Qround.
From Stdlib Require Import PrimFloat FloatOps SpecFloat Uint63.
From Stdlib Require Import DecimalString.
Import ListNotations.

Set Warnings "-inexact-float".

Local Open Scope string_scope.
Local Open Scope Z_scope.

(** ** The Python run time *)

Module Py.

(** The exceptions that can leave the modelled code. *)
Inductive exn : Type :=
| KeyError (key : string)
| ValueError
| OverflowError.

Inductive result (A : Type) : Type :=
| Ok (a : A)
| Raise (e : exn).

Arguments Ok {A} a.
Arguments Raise {A} e.

(** [x in [a, b, ...]] on strings: membership by [==]. *)
Definition list_contains (x : string) (l : list string) : bool :=
  existsb (String.eqb x) l.

(** [key in s] on strings: [key] occurs as a contiguous substring. *)
Fixpoint str_contains (key s : string) : bool :=
  String.prefix key s
  || match s with
     | EmptyString => false
     | String _ s' => str_contains key s'
     end.

(** A [dict] literal with string keys, in insertion order. *)
Definition dict (V : Type) : Type := list (string * V).

Fixpoint lookup {V : Type} (d : dict V) (k : string) : option V :=
  match d with
  | [] => None
  | (k', v) :: d' => if String.eqb k k' then Some v else lookup d' k
  end.

(** [d[k]]: raises [KeyError] on a missing key. *)
Definition getitem {V : Type} (d : dict V) (k : string) : result V :=
  match lookup d k with
  | Some v => Ok v
  | None => Raise (KeyError k)
  end.

(** [d.get(k, default)]. *)
Definition get {V : Type} (d : dict V) (k : string) (default : V) : V :=
  match lookup d k with
  | Some v => v
  | None => default
  end.

(** [int(x)] on a float: truncation toward zero; infinities and NaN
    raise. *)
Definition int (x : float) : result Z :=
  match Prim2SF x with
  | S754_zero _ => Ok 0
  | S754_finite s m e =>
      let v := if 0 <=? e then Zpos m * 2 ^ e else Zpos m / 2 ^ (- e) in
      Ok (if s then - v else v)
  | S754_infinity _ => Raise OverflowError
  | S754_nan => Raise ValueError
  end.

(** [np.mean] of a short list of floats.  The list becomes a float64
    array; [add.reduce] starts from the identity 0 and, for fewer than 8
    elements, adds them one after the other from left to right; the sum
    is then divided by the element count.  The program only ever passes
    the four collected scores; from 8 elements on NumPy sums in pairwise
    blocks, which this definition does not follow. *)
Definition np_mean (a : list float) : float :=
  PrimFloat.div (fold_left PrimFloat.add a 0%float)
                (PrimFloat.of_uint63 (Uint63.of_Z (Z.of_nat (List.length a)))).

End Py.

Import Py.

(** ** The body of [analyze_learning_path]

    The function keeps two lists, [reasoning] and [scores], that every rule
    appends to; they are the state of a small state-and-exception monad.
    The method labels are ordinary local variables. *)

Record frame : Type := mkFrame {
  reasoning : list string;
  scores : list float
}.

Definition M (A : Type) : Type := frame -> result (A * frame).

Definition ret {A : Type} (a : A) : M A := fun fr => Ok (a, fr).

Definition bind {A B : Type} (m : M A) (k : A -> M B) : M B :=
  fun fr =>
    match m fr with
    | Ok (a, fr') => k a fr'
    | Raise e => Raise e
    end.

Definition lift {A : Type} (r : result A) : M A :=
  fun fr =>
    match r with
    | Ok a => Ok (a, fr)
    | Raise e => Raise e
    end.

Declare Scope py_scope.
Delimit Scope py_scope with py.
Notation "x <- m ;; k" := (bind m (fun x => k))
  (at level 61, m at next level, right associativity) : py_scope.
Notation "m ;; k" := (bind m (fun _ => k))
  (at level 61, right associativity) : py_scope.
Local Open Scope py_scope.

(** [reasoning.append(s)] and [scores.append(x)]. *)
Definition reasoning_append (s : string) : M unit :=
  fun fr => Ok (tt, mkFrame (reasoning fr ++ [s])%list (scores fr)).

Definition scores_append (x : float) : M unit :=
  fun fr => Ok (tt, mkFrame (reasoning fr) (scores fr ++ [x])%list).

Definition read_scores : M (list float) := fun fr => Ok (scores fr, fr).
Definition read_reasoning : M (list string) := fun fr => Ok (reasoning fr, fr).

(** 时间因素分析: yields [base_method]. *)
Definition time_analysis (time : string) : M string :=
  if list_contains time ["1小时以下"; "1-2小时"] then
    reasoning_append "⏰ **时间分析**: 每日可用时间有限，推荐碎片化学习方案";;
    scores_append 0.7%float;;
    ret "微学习"
  else
    reasoning_append "⏰ **时间分析**: 每日学习时间充足，适合系统化深度学习";;
    scores_append 0.9%float;;
    ret "系统学习".

(** 知识水平分析: yields [knowledge_method]. *)
Definition level_analysis (level : string) : M string :=
  if list_contains level ["零基础"; "初级"] then
    reasoning_append "🎓 **基础分析**: 当前基础较弱，需要分层渐进式教学";;
    scores_append 0.6%float;;
    ret "分层教学"
  else
    reasoning_append "🎓 **基础分析**: 已有扎实基础，适合项目驱动学习";;
    scores_append 0.8%float;;
    ret "项目实践".

(** 预算分析: yields [budget_method]. *)
Definition budget_analysis (budget : Z) : M string :=
  if budget <? 300 then
    reasoning_append "💰 **预算分析**: 预算有限，优先利用免费优质资源";;
    scores_append 0.5%float;;
    ret "免费资源"
  else if budget <? 1000 then
    reasoning_append "💰 **预算分析**: 预算适中，可选择性购买付费课程";;
    scores_append 0.7%float;;
    ret "付费课程"
  else
    reasoning_append "💰 **预算分析**: 预算充足，推荐高端定制方案";;
    scores_append 0.9%float;;
    ret "定制方案".

(** 学习风格适配: yields [style_adapt]; the lookup is [style_adaptations[style]]. *)
Definition style_adaptations : dict string :=
  [ ("视觉型", "+ 图文视频资料");
    ("听觉型", "+ 音频课程播客");
    ("动手型", "+ 实践项目");
    ("阅读型", "+ 电子书文档") ].

Definition style_adaptation (style : string) : M string :=
  style_adapt <- lift (getitem style_adaptations style);;
  reasoning_append ("🎨 **风格适配**: 检测到" ++ style ++ "学习偏好");;
  ret style_adapt.

(** 紧迫度分析: may overwrite [base_method]. *)
Definition urgency_analysis (urgency base_method : string) : M string :=
  if String.eqb urgency "紧急" then
    reasoning_append "⚡ **紧迫度**: 学习目标紧迫，推荐强化训练模式";;
    scores_append 0.8%float;;
    ret "强化训练"
  else
    scores_append 0.6%float;;
    ret base_method.

(** 综合推荐: the f-string [f"{base_method} + {knowledge_method} + {budget_method}"]. *)
Definition recommendation_of (base_method knowledge_method budget_method : string)
  : string :=
  base_method ++ " + " ++ knowledge_method ++ " + " ++ budget_method.

(** 置信度计算: [int(np.mean(scores) * 100)]. *)
Definition confidence_of (scores : list float) : result Z :=
  Py.int (PrimFloat.mul (np_mean scores) 100%float).

Definition analyze_body (time level : string) (budget : Z) (urgency style : string)
  : M (string * Z * list string) :=
  base_method <- time_analysis time;;
  knowledge_method <- level_analysis level;;
  budget_method <- budget_analysis budget;;
  style_adapt <- style_adaptation style;;
  base_method <- urgency_analysis urgency base_method;;
  let recommendation :=
    recommendation_of base_method knowledge_method budget_method in
  scores <- read_scores;;
  confidence <- lift (confidence_of scores);;
  reasoning <- read_reasoning;;
  ret (recommendation, confidence, reasoning).

(** The function starts with both lists empty and returns the triple. *)
Definition analyze_learning_path
  (time level : string) (budget : Z) (urgency style : string)
  : result (string * Z * list string) :=
  match analyze_body time level budget urgency style (mkFrame [] []) with
  | Ok (r, _) => Ok r
  | Raise e => Raise e
  end.

(** The [scores] list as it stands when the function returns. *)
Definition collected_scores
  (time level : string) (budget : Z) (urgency style : string)
  : result (list float) :=
  match analyze_body time level budget urgency style (mkFrame [] []) with
  | Ok (_, fr) => Ok (scores fr)
  | Raise e => Raise e
  end.

(** ** [calculate_expected_effectiveness] *)

Definition effectiveness_scores : dict Z :=
  [ ("微学习", 70); ("系统学习", 85); ("强化训练", 90);
    ("分层教学", 80); ("项目实践", 85);
    ("免费资源", 65); ("付费课程", 80); ("定制方案", 90) ].

(** One iteration of [for key in effectiveness_scores], where
    [effectiveness_scores[key]] is the visited entry's own value. *)
Definition effectiveness_step (method : string) (score : Z) (kv : string * Z) : Z :=
  if str_contains (fst kv) method then Z.max score (snd kv) else score.

(** The loop visits the entries in insertion order, starting from 70. *)
Definition calculate_expected_effectiveness (method : string) : Z :=
  fold_left (effectiveness_step method) effectiveness_scores 70.

(** ** [get_style_analysis], the report's lookup of the same key *)

Definition get_style_analysis (style : string) : string :=
  Py.get
    [ ("视觉型", "适合视频教程、图表、思维导图等可视化学习材料");
      ("听觉型", "适合音频课程、播客、讲解录音等听觉学习方式");
      ("动手型", "适合编程实践、项目制作、实验操作等动手学习");
      ("阅读型", "适合文档阅读、电子书、技术文章等文字学习") ]
    style "学习风格分析".

(** ** The input domain offered by [main]

    The select boxes and the slider of the side bar. *)

Definition time_options : list string :=
  ["1小时以下"; "1-2小时"; "2-4小时"; "4小时以上"].
Definition level_options : list string := ["零基础"; "初级"; "中级"; "高级"].
Definition urgency_options : list string := ["宽松"; "中等"; "紧急"].
Definition style_options : list string := ["视觉型"; "听觉型"; "动手型"; "阅读型"].

Definition in_domain (time level : string) (budget : Z) (urgency style : string)
  : Prop :=
  In time time_options /\ In level level_options /\
  0 <= budget <= 2000 /\
  In urgency urgency_options /\ In style style_options.

(** ** The report's other lookups

    [show_detailed_analysis] describes each input through one helper; four
    of them are [dict.get] with a default, the budget one repeats the
    thresholds of the budget rule. *)

Definition get_time_analysis (time : string) : string :=
  Py.get
    [ ("1小时以下", "时间非常有限，建议利用碎片时间，重点学习核心概念");
      ("1-2小时", "时间适中，可以安排固定学习时段，聚焦关键技能");
      ("2-4小时", "时间充足，适合系统化学习，建立完整知识体系");
      ("4小时以上", "时间充裕，可以进行深度学习，结合理论与实践") ]
    time "时间条件分析".

Definition get_level_analysis (level : string) : string :=
  Py.get
    [ ("零基础", "从基础概念开始，需要大量示例和练习，建议循序渐进");
      ("初级", "已有基本了解，可以快速回顾基础后进入核心内容");
      ("中级", "具备一定基础，适合项目驱动学习，重点突破难点");
      ("高级", "基础扎实，可以专注前沿技术和深度优化") ]
    level "知识水平分析".

Definition get_budget_analysis (budget : Z) : string :=
  if budget <? 300 then
    "预算有限，但有很多优质免费资源可用，如开源教程、公开课等"
  else if budget <? 1000 then
    "预算适中，可以选择性购买关键课程，结合免费资源使用"
  else
    "预算充足，可以考虑高端定制服务，获得个性化指导".

Definition get_urgency_analysis (urgency : string) : string :=
  Py.get
    [ ("宽松", "学习进度可以放慢，注重理解深度和基础牢固");
      ("中等", "需要制定明确学习计划，按部就班推进");
      ("紧急", "需要强化训练，聚焦核心技能，快速提升") ]
    urgency "紧迫度分析".

(** ** The values [main] displays

    [main] calls [analyze_learning_path] on the side bar's values and then
    [calculate_expected_effectiveness] on the returned recommendation; the
    three metrics shown are the recommendation, the confidence and that
    effectiveness.  An exception of the first call leaves [main]. *)
Definition main_metrics
  (time_available knowledge_level : string) (budget : Z)
  (urgency learning_style : string)
  : result (string * Z * Z) :=
  match analyze_learning_path
          time_available knowledge_level budget urgency learning_style with
  | Ok (recommendation, confidence, _) =>
      Ok (recommendation, confidence,
          calculate_expected_effectiveness recommendation)
  | Raise e => Raise e
  end.

(** ** The rows of the detailed report

    [show_detailed_analysis] first builds the list [conditions], one dict
    with the keys 条件, 选择 and 分析 per input, and then shows each row in an
    expander.  The Streamlit calls are left out; the rows are what they are
    given. *)

(** [str(n)], as the f-string [f"{budget}元/月"] formats an [int]. *)
Definition str_of_int (n : Z) : string :=
  DecimalString.NilZero.string_of_int (Z.to_int n).

Record condition : Type := mkCondition {
  cond_name : string;      (* 条件 *)
  cond_choice : string;    (* 选择 *)
  cond_analysis : string   (* 分析 *)
}.

Definition show_detailed_analysis_conditions
  (time level : string) (budget : Z) (urgency style : string)
  : list condition :=
  [ mkCondition "⏰ 时间条件" time (get_time_analysis time);
    mkCondition "🎓 知识条件" level (get_level_analysis level);
    mkCondition "💰 预算条件" (str_of_int budget ++ "元/月")
                (get_budget_analysis budget);
    mkCondition "🎨 风格条件" style (get_style_analysis style);
    mkCondition "⚡ 紧迫度" urgency (get_urgency_analysis urgency) ].

(** [main] computes the metrics first and calls [show_detailed_analysis]
    last, on the same five values; an exception of the first call leaves
    [main] before any row is built. *)
Definition main_values
  (time_available knowledge_level : string) (budget : Z)
  (urgency learning_style : string)
  : result (string * Z * Z * list condition) :=
  match main_metrics
          time_available knowledge_level budget urgency learning_style with
  | Ok metrics =>
      Ok (metrics,
          show_detailed_analysis_conditions
            time_available knowledge_level budget urgency learning_style)
  | Raise e => Raise e
  end.

(** ** Reference definitions

    The confidence and the effectiveness as the specification words them,
    kept apart from the code above so that the two can be compared. *)

(** The real number a finite float stands for. *)
Definition Q_of_float (x : float) : Q :=
  match Prim2SF x with
  | S754_finite s m e =>
      ((if s then -1 else 1) * Zpos m # 1) * Qpower (2 # 1) e
  | _ => 0%Q
  end.

(** The arithmetic mean of the scores, without rounding error. *)
Definition exact_mean (l : list float) : Q :=
  (fold_right Qplus 0%Q (map Q_of_float l) / (Z.of_nat (List.length l) # 1))%Q.

Definition round_half_up (q : Q) : Z := Qfloor (q + (1 # 2))%Q.

Definition round_half_even (q : Q) : Z :=
  let f := Qfloor q in
  match ((q - (f # 1)) ?= (1 # 2))%Q with
  | Lt => f
  | Gt => f + 1
  | Eq => if Z.even f then f else f + 1
  end.

(** "The maximum table score among all table keys that are substrings of
    the label, defaulting to 70 if none match." *)
Definition matching_scores (method : string) : list Z :=
  map snd (filter (fun kv => str_contains (fst kv) method) effectiveness_scores).

Definition claimed_effectiveness (method : string) : Z :=
  match matching_scores method with
  | [] => 70
  | s :: l => fold_left Z.max l s
  end.

(** [key] occurs in [s] as a contiguous substring. *)
Definition occurs (key s : string) : Prop :=
  exists pre post, s = pre ++ key ++ post.

(** Pointwise comparison of two score lists of the same length. *)
Fixpoint scores_le (a b : list float) : bool :=
  match a, b with
  | [], [] => true
  | x :: a', y :: b' => PrimFloat.leb x y && scores_le a' b'
  | _, _ => false
  end.

(** ** Substring search *)

Section Substrings.

Lemma prefix_iff_app (key s : string) :
  String.prefix key s = true <-> exists post, s = key ++ post.
Proof.
  revert s; induction key as [|c key IH]; intros s; simpl.
  - split; [intros _; exists s; reflexivity | intros _; now destruct s].
  - destruct s as [|d s].
    + split; [discriminate | intros [post H]; discriminate].
    + simpl. destruct (Ascii.ascii_dec c d) as [->|Hne].
      * rewrite IH. split; intros [post H]; exists post.
        -- now rewrite H.
        -- now injection H.
      * split; [discriminate | intros [post H]; injection H; congruence].
Qed.

Lemma str_contains_nil (key : string) :
  str_contains key "" = String.prefix key "".
Proof. unfold str_contains. apply orb_false_r. Qed.

Lemma str_contains_cons (key : string) (d : Ascii.ascii) (s : string) :
  str_contains key (String d s)
  = String.prefix key (String d s) || str_contains key s.
Proof. reflexivity. Qed.

Lemma str_contains_iff_occurs (key s : string) :
  str_contains key s = true <-> occurs key s.
Proof.
  unfold occurs. induction s as [|d s IH].
  - rewrite str_contains_nil, prefix_iff_app. split.
    + intros [post H]. exists "", post. exact H.
    + intros [pre [post H]]. destruct pre; [exists post; exact H | discriminate].
  - rewrite str_contains_cons, orb_true_iff, IH, prefix_iff_app. split.
    + intros [[post H] | [pre [post H]]].
      * exists "", post. exact H.
      * exists (String d pre), post. simpl. now rewrite H.
    + intros [pre [post H]]. destruct pre as [|c pre].
      * left. exists post. exact H.
      * right. exists pre, post. simpl in H. now injection H.
Qed.

End Substrings.

(** ** The effectiveness loop *)

Section Effectiveness.

Variable method : string.

Local Abbreviation step := (effectiveness_step method).

Lemma loop_lower_bound (d : dict Z) (init : Z) :
  init <= fold_left step d init.
Proof.
  revert init; induction d as [|kv d IH]; intros init; simpl; [lia|].
  specialize (IH (step init kv)). unfold effectiveness_step in *.
  destruct (str_contains (fst kv) method); lia.
Qed.

Lemma loop_upper_bound (d : dict Z) (init : Z) key score :
  In (key, score) d -> str_contains key method = true ->
  score <= fold_left step d init.
Proof.
  revert init; induction d as [|kv d IH]; intros init Hin Hc; simpl; [destruct Hin|].
  destruct Hin as [-> | Hin].
  - etransitivity; [|apply loop_lower_bound].
    unfold effectiveness_step; simpl. rewrite Hc. lia.
  - now apply IH.
Qed.

Lemma loop_attained (d : dict Z) (init : Z) :
  fold_left step d init = init \/
  exists key score, In (key, score) d /\ str_contains key method = true /\
                    fold_left step d init = score.
Proof.
  revert init; induction d as [|[key score] d IH]; intros init; simpl; [now left|].
  destruct (IH (step init (key, score))) as [Heq | [k [sc [Hin [Hc Heq]]]]].
  - rewrite Heq. unfold effectiveness_step; simpl.
    destruct (str_contains key method) eqn:Hc; [|now left].
    destruct (Z.max_spec init score) as [[_ E] | [_ E]]; rewrite E.
    + right. exists key, score. split; [now left | split; [exact Hc | reflexivity]].
    + now left.
  - right. exists k, sc. split; [now right | split; [exact Hc | exact Heq]].
Qed.

Lemma loop_as_max_of_matches (d : dict Z) (init : Z) :
  fold_left step d init
  = fold_left Z.max
      (map snd (filter (fun kv => str_contains (fst kv) method) d)) init.
Proof.
  revert init; induction d as [|kv d IH]; intros init; simpl; [reflexivity|].
  rewrite IH. unfold effectiveness_step.
  destruct (str_contains (fst kv) method); reflexivity.
Qed.

End Effectiveness.

Lemma fold_max_shift (l : list Z) (a b : Z) :
  fold_left Z.max l (Z.max a b) = Z.max a (fold_left Z.max l b).
Proof.
  revert b; induction l as [|x l IH]; intros b; simpl; [reflexivity|].
  rewrite <- Z.max_assoc. apply IH.
Qed.

(** ** Dictionary lookups *)

Lemma lookup_missing {V : Type} (d : dict V) (k : string) :
  ~ In k (map fst d) -> lookup d k = None.
Proof.
  induction d as [|[k' v] d IH]; simpl; intros Hnot; [reflexivity|].
  destruct (String.eqb_spec k k') as [->|_]; [exfalso; apply Hnot; now left|].
  apply IH. intros Hin. apply Hnot. now right.
Qed.

Lemma style_known (style : string) :
  In style style_options -> exists v, lookup style_adaptations style = Some v.
Proof.
  intros [<-|[<-|[<-|[<-|[]]]]]; eexists; reflexivity.
Qed.

(** ** The effect of each rule on the two lists

    Every rule is described once, for an arbitrary frame: what it yields and
    what it appends. *)

Section Rules.

Lemma time_analysis_run (time : string) :
  exists base msg s,
    (forall fr, time_analysis time fr
                = Ok (base, mkFrame (reasoning fr ++ [msg]) (scores fr ++ [s]))) /\
    ((base = "微学习" /\ s = 0.7%float) \/ (base = "系统学习" /\ s = 0.9%float)).
Proof.
  unfold time_analysis. destruct (list_contains time _).
  - do 3 eexists. split; [intros fr; reflexivity | left; split; reflexivity].
  - do 3 eexists. split; [intros fr; reflexivity | right; split; reflexivity].
Qed.

Lemma level_analysis_run (level : string) :
  exists tag msg s,
    (forall fr, level_analysis level fr
                = Ok (tag, mkFrame (reasoning fr ++ [msg]) (scores fr ++ [s]))) /\
    ((tag = "分层教学" /\ s = 0.6%float) \/ (tag = "项目实践" /\ s = 0.8%float)).
Proof.
  unfold level_analysis. destruct (list_contains level _).
  - do 3 eexists. split; [intros fr; reflexivity | left; split; reflexivity].
  - do 3 eexists. split; [intros fr; reflexivity | right; split; reflexivity].
Qed.

Lemma budget_analysis_run (budget : Z) :
  exists tag msg s,
    (forall fr, budget_analysis budget fr
                = Ok (tag, mkFrame (reasoning fr ++ [msg]) (scores fr ++ [s]))) /\
    ((budget < 300 /\ tag = "免费资源" /\ s = 0.5%float) \/
     (300 <= budget < 1000 /\ tag = "付费课程" /\ s = 0.7%float) \/
     (1000 <= budget /\ tag = "定制方案" /\ s = 0.9%float)).
Proof.
  unfold budget_analysis.
  destruct (Z.ltb_spec budget 300); [|destruct (Z.ltb_spec budget 1000)].
  - do 3 eexists. split; [intros fr; reflexivity | left; auto].
  - do 3 eexists. split; [intros fr; reflexivity | right; left; auto].
  - do 3 eexists. split; [intros fr; reflexivity | right; right; auto].
Qed.

Lemma style_adaptation_run (style : string) :
  In style style_options ->
  exists adapt msg,
    forall fr, style_adaptation style fr
               = Ok (adapt, mkFrame (reasoning fr ++ [msg]) (scores fr)).
Proof.
  intros Hin. destruct (style_known style Hin) as [v Hv].
  exists v. eexists. intros fr.
  unfold style_adaptation, bind, lift, getitem. rewrite Hv. reflexivity.
Qed.

Lemma style_adaptation_raises (style : string) (fr : frame) :
  ~ In style style_options ->
  style_adaptation style fr = Raise (KeyError style).
Proof.
  intros Hnot. unfold style_adaptation, bind, lift, getitem.
  rewrite lookup_missing by exact Hnot. reflexivity.
Qed.

Lemma urgency_analysis_run (urgency : string) :
  (urgency = "紧急" /\
   exists msg, forall base fr,
     urgency_analysis urgency base fr
     = Ok ("强化训练", mkFrame (reasoning fr ++ [msg]) (scores fr ++ [0.8%float])))
  \/
  (urgency <> "紧急" /\
   forall base fr,
     urgency_analysis urgency base fr
     = Ok (base, mkFrame (reasoning fr) (scores fr ++ [0.6%float]))).
Proof.
  unfold urgency_analysis. destruct (String.eqb_spec urgency "紧急") as [E|E].
  - left. split; [exact E|]. eexists. intros base fr. reflexivity.
  - right. split; [exact E|]. intros base fr. reflexivity.
Qed.

(** Sequencing: once each rule's outcome is known, so is the body's. *)
Lemma analyze_body_steps time level budget urgency style
      tb km bm adapt base fr1 fr2 fr3 fr4 fr5 :
  time_analysis time (mkFrame [] []) = Ok (tb, fr1) ->
  level_analysis level fr1 = Ok (km, fr2) ->
  budget_analysis budget fr2 = Ok (bm, fr3) ->
  style_adaptation style fr3 = Ok (adapt, fr4) ->
  urgency_analysis urgency tb fr4 = Ok (base, fr5) ->
  analyze_body time level budget urgency style (mkFrame [] []) =
  match confidence_of (scores fr5) with
  | Ok c => Ok ((recommendation_of base km bm, c, reasoning fr5), fr5)
  | Raise e => Raise e
  end.
Proof.
  intros Ht Hl Hb Hs Hu. unfold analyze_body, bind.
  rewrite Ht, Hl, Hb, Hs, Hu.
  unfold read_scores, lift. destruct (confidence_of (scores fr5)); reflexivity.
Qed.

(** The style rule is the only one that can raise, and it runs fourth. *)
Lemma analyze_body_raises time level budget urgency style :
  ~ In style style_options ->
  analyze_body time level budget urgency style (mkFrame [] [])
  = Raise (KeyError style).
Proof.
  intros Hnot.
  destruct (time_analysis_run time) as (tb & m1 & s1 & Et & _).
  destruct (level_analysis_run level) as (km & m2 & s2 & El & _).
  destruct (budget_analysis_run budget) as (bm & m3 & s3 & Eb & _).
  unfold analyze_body, bind. rewrite Et, El, Eb.
  rewrite style_adaptation_raises by exact Hnot. reflexivity.
Qed.

End Rules.

(** The confidence for each of the 24 score lists the rules can collect. *)
Lemma confidence_of_collected (s1 s2 s3 s4 : float) :
  In s1 [0.7; 0.9]%float -> In s2 [0.6; 0.8]%float ->
  In s3 [0.5; 0.7; 0.9]%float -> In s4 [0.6; 0.8]%float ->
  exists c, confidence_of [s1; s2; s3; s4] = Ok c /\ 60 <= c <= 85.
Proof.
  intros [<-|[<-|[]]] [<-|[<-|[]]] [<-|[<-|[<-|[]]]] [<-|[<-|[]]];
    eexists; (split; [vm_compute; reflexivity | lia]).
Qed.

(** ** A complete run on a known style

    The outcome of every rule, the collected scores and the returned triple,
    for any call whose style is one of the four keys. *)

Lemma analyze_body_run time level budget urgency style :
  In style style_options ->
  exists tb km bm base reas s1 s2 s3 s4 c,
    (forall fr, exists msg,
        time_analysis time fr
        = Ok (tb, mkFrame (reasoning fr ++ [msg]) (scores fr ++ [s1]))) /\
    (forall fr, exists msg,
        level_analysis level fr
        = Ok (km, mkFrame (reasoning fr ++ [msg]) (scores fr ++ [s2]))) /\
    (forall fr, exists msg,
        budget_analysis budget fr
        = Ok (bm, mkFrame (reasoning fr ++ [msg]) (scores fr ++ [s3]))) /\
    (forall fr, exists adapt msg,
        style_adaptation style fr
        = Ok (adapt, mkFrame (reasoning fr ++ [msg]) (scores fr))) /\
    (forall b fr, exists b' reas',
        urgency_analysis urgency b fr
        = Ok (b', mkFrame reas' (scores fr ++ [s4]))) /\
    ((tb = "微学习" /\ s1 = 0.7%float) \/ (tb = "系统学习" /\ s1 = 0.9%float)) /\
    ((km = "分层教学" /\ s2 = 0.6%float) \/ (km = "项目实践" /\ s2 = 0.8%float)) /\
    ((budget < 300 /\ bm = "免费资源" /\ s3 = 0.5%float) \/
     (300 <= budget < 1000 /\ bm = "付费课程" /\ s3 = 0.7%float) \/
     (1000 <= budget /\ bm = "定制方案" /\ s3 = 0.9%float)) /\
    ((urgency = "紧急" /\ base = "强化训练" /\ s4 = 0.8%float) \/
     (urgency <> "紧急" /\ base = tb /\ s4 = 0.6%float)) /\
    (In s1 [0.7; 0.9]%float /\ In s2 [0.6; 0.8]%float /\
     In s3 [0.5; 0.7; 0.9]%float /\ In s4 [0.6; 0.8]%float) /\
    confidence_of [s1; s2; s3; s4] = Ok c /\
    analyze_body time level budget urgency style (mkFrame [] [])
    = Ok ((recommendation_of base km bm, c, reas), mkFrame reas [s1; s2; s3; s4]).
Proof.
  intros Hstyle.
  destruct (time_analysis_run time) as (tb & m1 & s1 & Et & Ht).
  destruct (level_analysis_run level) as (km & m2 & s2 & El & Hl).
  destruct (budget_analysis_run budget) as (bm & m3 & s3 & Eb & Hb).
  destruct (style_adaptation_run style Hstyle) as (adapt & m4 & Es).
  assert (Hs1 : In s1 [0.7; 0.9]%float)
    by (destruct Ht as [[_ E] | [_ E]]; rewrite E; simpl; auto).
  assert (Hs2 : In s2 [0.6; 0.8]%float)
    by (destruct Hl as [[_ E] | [_ E]]; rewrite E; simpl; auto).
  assert (Hs3 : In s3 [0.5; 0.7; 0.9]%float)
    by (destruct Hb as [(_ & _ & E) | [(_ & _ & E) | (_ & _ & E)]];
        rewrite E; simpl; auto).
  destruct (urgency_analysis_run urgency) as [[Eu [m5 Hu]] | [Eu Hu]].
  - destruct (confidence_of_collected s1 s2 s3 0.8%float Hs1 Hs2 Hs3) as (c & Hc & _);
      [simpl; auto|].
    exists tb, km, bm, "强化训练", [m1; m2; m3; m4; m5], s1, s2, s3, 0.8%float, c.
    repeat split; eauto; try (simpl; now auto).
    rewrite (analyze_body_steps _ _ _ _ _ _ _ _ _ _ _ _ _ _ _
               (Et _) (El _) (Eb _) (Es _) (Hu _ _)).
    simpl. rewrite Hc. reflexivity.
  - destruct (confidence_of_collected s1 s2 s3 0.6%float Hs1 Hs2 Hs3) as (c & Hc & _);
      [simpl; auto|].
    exists tb, km, bm, tb, [m1; m2; m3; m4], s1, s2, s3, 0.6%float, c.
    repeat split; eauto; try (simpl; now auto).
    rewrite (analyze_body_steps _ _ _ _ _ _ _ _ _ _ _ _ _ _ _
               (Et _) (El _) (Eb _) (Es _) (Hu _ _)).
    simpl. rewrite Hc. reflexivity.
Qed.

(** Larger scores never give a smaller confidence: float addition, division
    and multiplication by positive numbers and truncation are all monotone. *)
Lemma confidence_of_monotone (s1 s2 s3 s4 t1 t2 t3 t4 : float) :
  In s1 [0.7; 0.9]%float -> In s2 [0.6; 0.8]%float ->
  In s3 [0.5; 0.7; 0.9]%float -> In s4 [0.6; 0.8]%float ->
  In t1 [0.7; 0.9]%float -> In t2 [0.6; 0.8]%float ->
  In t3 [0.5; 0.7; 0.9]%float -> In t4 [0.6; 0.8]%float ->
  scores_le [s1; s2; s3; s4] [t1; t2; t3; t4] = true ->
  forall c d,
    confidence_of [s1; s2; s3; s4] = Ok c ->
    confidence_of [t1; t2; t3; t4] = Ok d ->
    c <= d.
Proof.
  intros [<-|[<-|[]]] [<-|[<-|[]]] [<-|[<-|[<-|[]]]] [<-|[<-|[]]]
         [<-|[<-|[]]] [<-|[<-|[]]] [<-|[<-|[<-|[]]]] [<-|[<-|[]]] Hle c d Hc Hd;
    vm_compute in Hle; try discriminate Hle;
    vm_compute in Hc; vm_compute in Hd;
    injection Hc as <-; injection Hd as <-; lia.
Qed.

(** How far the truncation is from the rounded mean: the two agree except
    on two score lists, whose float64 sum falls just below 2.6, where the
    truncation gives 64 and rounding gives 65. *)
Lemma confidence_of_against_rounded_mean (s1 s2 s3 s4 : float) :
  In s1 [0.7; 0.9]%float -> In s2 [0.6; 0.8]%float ->
  In s3 [0.5; 0.7; 0.9]%float -> In s4 [0.6; 0.8]%float ->
  let rounded := round_half_even (exact_mean [s1; s2; s3; s4] * (100 # 1)) in
  round_half_up (exact_mean [s1; s2; s3; s4] * (100 # 1)) = rounded /\
  (confidence_of [s1; s2; s3; s4] = Ok rounded \/
   (confidence_of [s1; s2; s3; s4] = Ok 64 /\ rounded = 65 /\
    ([s1; s2; s3; s4] = [0.7; 0.6; 0.5; 0.8]%float \/
     [s1; s2; s3; s4] = [0.7; 0.6; 0.7; 0.6]%float))).
Proof.
  intros [<-|[<-|[]]] [<-|[<-|[]]] [<-|[<-|[<-|[]]]] [<-|[<-|[]]];
    (split; [vm_compute; reflexivity|]);
    first [ left; vm_compute; reflexivity
          | right; split; [vm_compute; reflexivity|];
            split; [vm_compute; reflexivity|];
            first [left; reflexivity | right; reflexivity] ].
Qed.

(** ** The style lookup *)

(** C1.  What the code does on a style outside the four keys of
    [style_adaptations]: whatever the other arguments are,
    [analyze_learning_path] does not return a result but raises
    [KeyError] for that style, because the lookup is [style_adaptations[style]];
    the report's lookup of the same key, [get_style_analysis], does fall back
    to its generic string. *)
Theorem unknown_style_raises_KeyError time level budget urgency style :
  ~ In style style_options ->
  analyze_learning_path time level budget urgency style = Raise (KeyError style) /\
  get_style_analysis style = "学习风格分析".
Proof.
  intros Hnot. split.
  - unfold analyze_learning_path.
    rewrite analyze_body_raises by exact Hnot. reflexivity.
  - unfold get_style_analysis, Py.get.
    rewrite lookup_missing by exact Hnot. reflexivity.
Qed.

Lemma unknown_style_raises_KeyError_witness :
  ~ In "混合型" style_options /\
  analyze_learning_path "1小时以下" "零基础" 100 "宽松" "混合型"
  = Raise (KeyError "混合型") /\
  get_style_analysis "混合型" = "学习风格分析".
Proof.
  assert (H : ~ In "混合型" style_options).
  { simpl. intros [H|[H|[H|[H|[]]]]]; discriminate H. }
  split; [exact H|].
  exact (unknown_style_raises_KeyError "1小时以下" "零基础" 100 "宽松" "混合型" H).
Defined.

(** ** The confidence *)

(** C2.  The confidence is [int(np.mean(scores) * 100)], a truncation of a
    float64 product.  On the input (1小时以下, 零基础, 100, 紧急, 阅读型) the
    collected scores are 0.7, 0.6, 0.5 and 0.8; their float64 sum is just
    below 2.6, and the code returns 64, while the mean of the scores times
    100, rounded half-to-even or half-up, is 65. *)
Theorem confidence_truncated_below_rounded_mean :
  exists recommendation reasoning,
    analyze_learning_path "1小时以下" "零基础" 100 "紧急" "阅读型"
    = Ok (recommendation, 64, reasoning) /\
    collected_scores "1小时以下" "零基础" 100 "紧急" "阅读型"
    = Ok [0.7; 0.6; 0.5; 0.8]%float /\
    round_half_even (exact_mean [0.7; 0.6; 0.5; 0.8]%float * (100 # 1)) = 65 /\
    round_half_up (exact_mean [0.7; 0.6; 0.5; 0.8]%float * (100 # 1)) = 65.
Proof.
  do 2 eexists. repeat split; vm_compute; reflexivity.
Qed.

(** C3.  The two worked examples as the code computes them.  The first gives
    系统学习 + 项目实践 + 定制方案 with confidence 80, as stated.  The second
    gives 强化训练 + 分层教学 + 免费资源 from the scores 0.7, 0.6, 0.5, 0.8, as
    stated, but with confidence 64 where 65 is stated. *)
Theorem worked_examples :
  (exists reasoning,
      analyze_learning_path "4小时以上" "高级" 1500 "宽松" "视觉型"
      = Ok ("系统学习 + 项目实践 + 定制方案", 80, reasoning) /\
      collected_scores "4小时以上" "高级" 1500 "宽松" "视觉型"
      = Ok [0.9; 0.8; 0.9; 0.6]%float) /\
  (exists reasoning,
      analyze_learning_path "1小时以下" "零基础" 100 "紧急" "阅读型"
      = Ok ("强化训练 + 分层教学 + 免费资源", 64, reasoning) /\
      collected_scores "1小时以下" "零基础" 100 "紧急" "阅读型"
      = Ok [0.7; 0.6; 0.5; 0.8]%float).
Proof.
  split; eexists; split; vm_compute; reflexivity.
Qed.

(** C7.  For every in-domain input the call returns, and the confidence it
    returns is an integer between 0 and 100. *)
Theorem confidence_in_percent_range time level budget urgency style :
  in_domain time level budget urgency style ->
  exists recommendation confidence reasoning,
    analyze_learning_path time level budget urgency style
    = Ok (recommendation, confidence, reasoning) /\
    0 <= confidence <= 100.
Proof.
  intros (_ & _ & _ & _ & Hstyle).
  destruct (analyze_body_run time level budget urgency style Hstyle)
    as (tb & km & bm & base & reas & s1 & s2 & s3 & s4 & c & H).
  destruct H as (_ & _ & _ & _ & _ & _ & _ & _ & _ & Hin & Hc & Hrun).
  destruct Hin as (H1 & H2 & H3 & H4).
  destruct (confidence_of_collected s1 s2 s3 s4 H1 H2 H3 H4) as (c' & Hc' & Hrange).
  rewrite Hc in Hc'. injection Hc' as <-.
  exists (recommendation_of base km bm), c, reas. split; [|lia].
  unfold analyze_learning_path. rewrite Hrun. reflexivity.
Qed.

Lemma confidence_in_percent_range_witness :
  in_domain "2-4小时" "中级" 500 "中等" "动手型" /\
  exists recommendation confidence reasoning,
    analyze_learning_path "2-4小时" "中级" 500 "中等" "动手型"
    = Ok (recommendation, confidence, reasoning) /\
    0 <= confidence <= 100.
Proof.
  assert (H : in_domain "2-4小时" "中级" 500 "中等" "动手型").
  { unfold in_domain. simpl. repeat split; auto 10; lia. }
  split; [exact H|].
  exact (confidence_in_percent_range "2-4小时" "中级" 500 "中等" "动手型" H).
Defined.

(** ** The budget rule *)

(** C4.  For a budget in [0, 2000] the budget rule appends exactly one score
    and yields one tag, and the call returns a label whose third part is that
    tag and a score list whose third entry is that score: below 300 the tag
    is 免费资源 with score 0.5, from 300 up to 999 it is 付费课程 with score
    0.7, from 1000 on it is 定制方案 with score 0.9; at 300 the tag is
    付费课程, not 免费资源. *)
Theorem budget_rule_partition time level budget urgency style :
  in_domain time level budget urgency style ->
  exists tag score,
    (forall fr, exists msg,
        budget_analysis budget fr
        = Ok (tag, mkFrame (reasoning fr ++ [msg]) (scores fr ++ [score]))) /\
    (exists base km confidence reasoning s1 s2 s4,
        analyze_learning_path time level budget urgency style
        = Ok (recommendation_of base km tag, confidence, reasoning) /\
        collected_scores time level budget urgency style
        = Ok [s1; s2; score; s4]) /\
    (budget < 300 -> tag = "免费资源" /\ score = 0.5%float) /\
    (300 <= budget < 1000 -> tag = "付费课程" /\ score = 0.7%float) /\
    (1000 <= budget -> tag = "定制方案" /\ score = 0.9%float) /\
    (budget = 300 -> tag = "付费课程" /\ tag <> "免费资源").
Proof.
  intros (_ & _ & _ & _ & Hstyle).
  destruct (analyze_body_run time level budget urgency style Hstyle)
    as (tb & km & bm & base & reas & s1 & s2 & s3 & s4 & c & H).
  destruct H as (_ & _ & Eb & _ & _ & _ & _ & Hb & _ & _ & _ & Hrun).
  exists bm, s3. split; [exact Eb|]. split.
  - exists base, km, c, reas, s1, s2, s4.
    unfold analyze_learning_path, collected_scores. rewrite Hrun. split; reflexivity.
  - destruct Hb as [(Hlt & -> & ->) | [(Hmid & -> & ->) | (Hge & -> & ->)]];
      repeat split; intros; try lia; try reflexivity; discriminate.
Qed.

Lemma budget_rule_partition_witness :
  in_domain "1-2小时" "初级" 300 "中等" "听觉型" /\
  exists tag,
    (exists base km confidence reasoning,
        analyze_learning_path "1-2小时" "初级" 300 "中等" "听觉型"
        = Ok (recommendation_of base km tag, confidence, reasoning)) /\
    tag = "付费课程".
Proof.
  assert (H : in_domain "1-2小时" "初级" 300 "中等" "听觉型").
  { unfold in_domain. simpl. repeat split; auto 10; lia. }
  split; [exact H|].
  destruct (budget_rule_partition "1-2小时" "初级" 300 "中等" "听觉型" H)
    as (tag & score & _ & (base & km & c & reas & _ & _ & _ & E & _)
        & _ & _ & _ & H300).
  exists tag. split.
  - exists base, km, c, reas. exact E.
  - exact (proj1 (H300 eq_refl)).
Defined.

(** ** The urgency rule *)

(** C6.  For every in-domain input, with [time_base] the base method the
    time rule yields (微学习 or 系统学习), [km] the tag the knowledge rule
    yields and [bm] the tag the budget rule yields: if the urgency is 紧急
    the returned label is the text 强化训练 + km + bm, whatever [time_base]
    is, and the fourth, last score is 0.8; otherwise the returned label is
    the text time_base + km + bm and the last score is 0.6. *)
Theorem urgency_rule_base_method time level budget urgency style :
  in_domain time level budget urgency style ->
  exists time_base fr1 km fr2 bm fr3 confidence reasoning s1 s2 s3,
    time_analysis time (mkFrame [] []) = Ok (time_base, fr1) /\
    level_analysis level fr1 = Ok (km, fr2) /\
    budget_analysis budget fr2 = Ok (bm, fr3) /\
    (time_base = "微学习" \/ time_base = "系统学习") /\
    (urgency = "紧急" ->
     analyze_learning_path time level budget urgency style
     = Ok ("强化训练 + " ++ km ++ " + " ++ bm, confidence, reasoning) /\
     collected_scores time level budget urgency style
     = Ok [s1; s2; s3; 0.8%float]) /\
    (urgency <> "紧急" ->
     analyze_learning_path time level budget urgency style
     = Ok (time_base ++ " + " ++ km ++ " + " ++ bm, confidence, reasoning) /\
     collected_scores time level budget urgency style
     = Ok [s1; s2; s3; 0.6%float]).
Proof.
  intros (_ & _ & _ & _ & Hstyle).
  destruct (analyze_body_run time level budget urgency style Hstyle)
    as (tb & km & bm & base & reas & s1 & s2 & s3 & s4 & c & H).
  destruct H as (Et & El & Eb & _ & _ & Ht & _ & _ & Hu & _ & _ & Hrun).
  destruct (Et (mkFrame [] [])) as [msg1 Et0].
  destruct (El (mkFrame ([] ++ [msg1]) ([] ++ [s1]))) as [msg2 El0].
  destruct (Eb (mkFrame (([] ++ [msg1]) ++ [msg2]) (([] ++ [s1]) ++ [s2])))
    as [msg3 Eb0].
  exists tb. eexists. exists km. eexists. exists bm. eexists.
  exists c, reas, s1, s2, s3.
  split; [exact Et0|]. split; [exact El0|]. split; [exact Eb0|].
  split; [destruct Ht as [[E _] | [E _]]; auto|].
  unfold analyze_learning_path, collected_scores. rewrite Hrun.
  destruct Hu as [(Eu & -> & ->) | (Eu & -> & ->)]; split; intros Hcase;
    try contradiction; split; reflexivity.
Qed.

Lemma urgency_rule_base_method_witness :
  in_domain "4小时以上" "高级" 1500 "紧急" "视觉型" /\
  in_domain "4小时以上" "高级" 1500 "宽松" "视觉型" /\
  (exists confidence reasoning,
      analyze_learning_path "4小时以上" "高级" 1500 "紧急" "视觉型"
      = Ok ("强化训练 + 项目实践 + 定制方案", confidence, reasoning)) /\
  (exists confidence reasoning,
      analyze_learning_path "4小时以上" "高级" 1500 "宽松" "视觉型"
      = Ok ("系统学习 + 项目实践 + 定制方案", confidence, reasoning)).
Proof.
  assert (H1 : in_domain "4小时以上" "高级" 1500 "紧急" "视觉型").
  { unfold in_domain. simpl. repeat split; auto 10; lia. }
  assert (H2 : in_domain "4小时以上" "高级" 1500 "宽松" "视觉型").
  { unfold in_domain. simpl. repeat split; auto 10; lia. }
  split; [exact H1|]. split; [exact H2|]. split.
  - destruct (urgency_rule_base_method "4小时以上" "高级" 1500 "紧急" "视觉型" H1)
      as (tb & fr1 & km & fr2 & bm & fr3 & c & reas & s1 & s2 & s3
          & Et & El & Eb & _ & Hurgent & _).
    destruct (Hurgent eq_refl) as [E _].
    vm_compute in Et. injection Et as <- <-.
    vm_compute in El. injection El as <- <-.
    vm_compute in Eb. injection Eb as <- <-.
    exists c, reas. exact E.
  - destruct (urgency_rule_base_method "4小时以上" "高级" 1500 "宽松" "视觉型" H2)
      as (tb & fr1 & km & fr2 & bm & fr3 & c & reas & s1 & s2 & s3
          & Et & El & Eb & _ & _ & Hrelaxed).
    assert (Hne : "宽松" <> "紧急") by discriminate.
    destruct (Hrelaxed Hne) as [E _].
    vm_compute in Et. injection Et as <- <-.
    vm_compute in El. injection El as <- <-.
    vm_compute in Eb. injection Eb as <- <-.
    exists c, reas. exact E.
Defined.

(** ** Monotonicity *)

(** C9.  For any two in-domain inputs, both calls return, and if every rule
    contributes to the second call a score at least as large as to the first
    (in particular when one input changed so that its rule's score grew and
    the other inputs stayed fixed), the second confidence is not smaller
    than the first. *)
Theorem confidence_monotone_in_scores
        time1 level1 budget1 urgency1 style1
        time2 level2 budget2 urgency2 style2 :
  in_domain time1 level1 budget1 urgency1 style1 ->
  in_domain time2 level2 budget2 urgency2 style2 ->
  exists sc1 sc2 r1 c1 e1 r2 c2 e2,
    collected_scores time1 level1 budget1 urgency1 style1 = Ok sc1 /\
    collected_scores time2 level2 budget2 urgency2 style2 = Ok sc2 /\
    analyze_learning_path time1 level1 budget1 urgency1 style1 = Ok (r1, c1, e1) /\
    analyze_learning_path time2 level2 budget2 urgency2 style2 = Ok (r2, c2, e2) /\
    (scores_le sc1 sc2 = true -> c1 <= c2).
Proof.
  intros (_ & _ & _ & _ & Hstyle1) (_ & _ & _ & _ & Hstyle2).
  destruct (analyze_body_run time1 level1 budget1 urgency1 style1 Hstyle1)
    as (tb & km & bm & base & reas & s1 & s2 & s3 & s4 & c & H).
  destruct H as (_ & _ & _ & _ & _ & _ & _ & _ & _ & Hs & Hc & Hrun).
  destruct (analyze_body_run time2 level2 budget2 urgency2 style2 Hstyle2)
    as (tb' & km' & bm' & base' & reas' & t1 & t2 & t3 & t4 & d & H).
  destruct H as (_ & _ & _ & _ & _ & _ & _ & _ & _ & Ht & Hd & Hrun').
  exists [s1; s2; s3; s4], [t1; t2; t3; t4].
  exists (recommendation_of base km bm), c, reas.
  exists (recommendation_of base' km' bm'), d, reas'.
  unfold collected_scores, analyze_learning_path. rewrite Hrun, Hrun'.
  repeat split.
  intros Hle.
  destruct Hs as (H1 & H2 & H3 & H4), Ht as (H1' & H2' & H3' & H4').
  exact (confidence_of_monotone _ _ _ _ _ _ _ _
           H1 H2 H3 H4 H1' H2' H3' H4' Hle c d Hc Hd).
Qed.

Lemma confidence_monotone_in_scores_witness :
  in_domain "1小时以下" "零基础" 100 "宽松" "阅读型" /\
  in_domain "1小时以下" "零基础" 500 "宽松" "阅读型" /\
  exists r1 c1 e1 r2 c2 e2,
    analyze_learning_path "1小时以下" "零基础" 100 "宽松" "阅读型" = Ok (r1, c1, e1) /\
    analyze_learning_path "1小时以下" "零基础" 500 "宽松" "阅读型" = Ok (r2, c2, e2) /\
    c1 <= c2.
Proof.
  assert (H1 : in_domain "1小时以下" "零基础" 100 "宽松" "阅读型").
  { unfold in_domain. simpl. repeat split; auto 10; lia. }
  assert (H2 : in_domain "1小时以下" "零基础" 500 "宽松" "阅读型").
  { unfold in_domain. simpl. repeat split; auto 10; lia. }
  split; [exact H1|]. split; [exact H2|].
  destruct (confidence_monotone_in_scores _ _ _ _ _ _ _ _ _ _ H1 H2)
    as (sc1 & sc2 & r1 & c1 & e1 & r2 & c2 & e2 & E1 & E2 & A1 & A2 & Hmono).
  exists r1, c1, e1, r2, c2, e2. split; [exact A1|]. split; [exact A2|].
  apply Hmono.
  vm_compute in E1. vm_compute in E2.
  injection E1 as <-. injection E2 as <-. reflexivity.
Defined.

(** ** The collected scores *)

(** C10.  For every in-domain input the call returns and exactly four scores
    are collected, one appended by each of the time, knowledge, budget and
    urgency rules in this order, while the style rule leaves the score list
    as it is; every score is one of 0.5, 0.6, 0.7, 0.8, 0.9; and the
    confidence lies between 60 and 85. *)
Theorem four_scores_confidence_60_85 time level budget urgency style :
  in_domain time level budget urgency style ->
  exists recommendation confidence reasoning s1 s2 s3 s4,
    analyze_learning_path time level budget urgency style
    = Ok (recommendation, confidence, reasoning) /\
    collected_scores time level budget urgency style = Ok [s1; s2; s3; s4] /\
    (forall fr, exists a fr',
        time_analysis time fr = Ok (a, fr') /\ scores fr' = (scores fr ++ [s1])%list) /\
    (forall fr, exists a fr',
        level_analysis level fr = Ok (a, fr') /\ scores fr' = (scores fr ++ [s2])%list) /\
    (forall fr, exists a fr',
        budget_analysis budget fr = Ok (a, fr') /\ scores fr' = (scores fr ++ [s3])%list) /\
    (forall fr, exists a fr',
        style_adaptation style fr = Ok (a, fr') /\ scores fr' = scores fr) /\
    (forall base fr, exists a fr',
        urgency_analysis urgency base fr = Ok (a, fr') /\
        scores fr' = (scores fr ++ [s4])%list) /\
    Forall (fun s => In s [0.5; 0.6; 0.7; 0.8; 0.9]%float) [s1; s2; s3; s4] /\
    60 <= confidence <= 85.
Proof.
  intros (_ & _ & _ & _ & Hstyle).
  destruct (analyze_body_run time level budget urgency style Hstyle)
    as (tb & km & bm & base & reas & s1 & s2 & s3 & s4 & c & H).
  destruct H as (Et & El & Eb & Es & Eu & _ & _ & _ & _ & Hin & Hc & Hrun).
  destruct Hin as (H1 & H2 & H3 & H4).
  destruct (confidence_of_collected s1 s2 s3 s4 H1 H2 H3 H4) as (c' & Hc' & Hrange).
  rewrite Hc in Hc'. injection Hc' as <-.
  exists (recommendation_of base km bm), c, reas, s1, s2, s3, s4.
  unfold analyze_learning_path, collected_scores. rewrite Hrun.
  split; [reflexivity|]. split; [reflexivity|].
  split; [intros fr; destruct (Et fr) as [msg E]; rewrite E; eauto|].
  split; [intros fr; destruct (El fr) as [msg E]; rewrite E; eauto|].
  split; [intros fr; destruct (Eb fr) as [msg E]; rewrite E; eauto|].
  split; [intros fr; destruct (Es fr) as (a & msg & E); rewrite E; eauto|].
  split; [intros b fr; destruct (Eu b fr) as (a & r & E); rewrite E; eauto|].
  split; [|exact Hrange].
  repeat apply Forall_cons; try apply Forall_nil; simpl in *; intuition auto.
Qed.

Lemma four_scores_confidence_60_85_witness :
  in_domain "4小时以上" "高级" 2000 "紧急" "动手型" /\
  exists recommendation confidence reasoning s1 s2 s3 s4,
    analyze_learning_path "4小时以上" "高级" 2000 "紧急" "动手型"
    = Ok (recommendation, confidence, reasoning) /\
    collected_scores "4小时以上" "高级" 2000 "紧急" "动手型" = Ok [s1; s2; s3; s4] /\
    60 <= confidence <= 85.
Proof.
  assert (H : in_domain "4小时以上" "高级" 2000 "紧急" "动手型").
  { unfold in_domain. simpl. repeat split; auto 10; lia. }
  split; [exact H|].
  destruct (four_scores_confidence_60_85 _ _ _ _ _ H)
    as (r & c & e & s1 & s2 & s3 & s4 & A & S & _ & _ & _ & _ & _ & _ & Hr).
  exists r, c, e, s1, s2, s3, s4. auto.
Defined.

(** ** The expected effectiveness *)

(** C5, as the code has it.  For every string, the function returns at least
    70 and returns the larger of 70 and the maximum table score over the
    table keys that occur in the string as substrings: it is at least the
    score of every such key, and it is either 70 or the score of one of them.
    A string in which both 系统学习 and 定制方案 occur yields 90. *)
Theorem effectiveness_floor_and_maximum (method : string) :
  70 <= calculate_expected_effectiveness method /\
  calculate_expected_effectiveness method
  = Z.max 70 (claimed_effectiveness method) /\
  (forall key score,
      In (key, score) effectiveness_scores -> occurs key method ->
      score <= calculate_expected_effectiveness method) /\
  (calculate_expected_effectiveness method = 70 \/
   exists key score,
     In (key, score) effectiveness_scores /\ occurs key method /\
     calculate_expected_effectiveness method = score) /\
  (occurs "系统学习" method -> occurs "定制方案" method ->
   calculate_expected_effectiveness method = 90).
Proof.
  assert (Hub : forall key score,
             In (key, score) effectiveness_scores -> occurs key method ->
             score <= calculate_expected_effectiveness method).
  { intros key score Hin Hocc. apply str_contains_iff_occurs in Hocc.
    exact (loop_upper_bound method effectiveness_scores 70 key score Hin Hocc). }
  assert (Hatt : calculate_expected_effectiveness method = 70 \/
                 exists key score,
                   In (key, score) effectiveness_scores /\ occurs key method /\
                   calculate_expected_effectiveness method = score).
  { destruct (loop_attained method effectiveness_scores 70)
      as [E | (key & score & Hin & Hc & E)]; [now left|].
    right. exists key, score. apply str_contains_iff_occurs in Hc. auto. }
  split; [apply loop_lower_bound|].
  split.
  { unfold calculate_expected_effectiveness, claimed_effectiveness, matching_scores.
    rewrite loop_as_max_of_matches.
    destruct (map snd (filter _ effectiveness_scores)) as [|s l]; [reflexivity|].
    simpl. apply fold_max_shift. }
  split; [exact Hub|]. split; [exact Hatt|].
  intros _ Hcustom.
  assert (Hge : 90 <= calculate_expected_effectiveness method).
  { apply (Hub "定制方案" 90); [simpl; auto 10 | exact Hcustom]. }
  destruct Hatt as [E | (key & score & Hin & _ & E)]; [lia|].
  assert (score <= 90).
  { simpl in Hin.
    repeat match goal with
           | H : _ \/ _ |- _ => destruct H as [H | H]
           | H : (_, _) = (_, _) |- _ => injection H as _ <-
           | H : False |- _ => destruct H
           end; lia. }
  lia.
Qed.

Lemma effectiveness_floor_and_maximum_witness :
  occurs "系统学习" "系统学习 + 项目实践 + 定制方案" /\
  occurs "定制方案" "系统学习 + 项目实践 + 定制方案" /\
  calculate_expected_effectiveness "系统学习 + 项目实践 + 定制方案" = 90.
Proof.
  assert (H1 : occurs "系统学习" "系统学习 + 项目实践 + 定制方案")
    by (exists "", " + 项目实践 + 定制方案"; reflexivity).
  assert (H2 : occurs "定制方案" "系统学习 + 项目实践 + 定制方案")
    by (exists "系统学习 + 项目实践 + ", ""; reflexivity).
  split; [exact H1|]. split; [exact H2|].
  exact (proj2 (proj2 (proj2 (proj2
           (effectiveness_floor_and_maximum "系统学习 + 项目实践 + 定制方案"))))
           H1 H2).
Defined.

(** C5 as stated fails on a string whose only matching key scores below the
    floor: in 免费资源 the one key that occurs is 免费资源, with table score
    65, and the function returns 70. *)
Lemma effectiveness_floor_exceeds_only_match :
  matching_scores "免费资源" = [65] /\
  claimed_effectiveness "免费资源" = 65 /\
  calculate_expected_effectiveness "免费资源" = 70 /\
  ~ (forall method,
        calculate_expected_effectiveness method = claimed_effectiveness method).
Proof.
  split; [reflexivity|]. split; [reflexivity|]. split; [reflexivity|].
  intros H. specialize (H "免费资源"). vm_compute in H. discriminate H.
Qed.

(** * Further properties of the code *)

(** ** The call as a function of the five tests

    The outcome of a call on a known style, written out from the tests the
    rules make: whether the time is one of the two short options, whether
    the level is one of the two low ones, the budget band, and whether the
    urgency is 紧急.  The lines of the first three rules and of the urgency
    rule do not depend on the style. *)
Lemma analyze_body_by_tests time level budget urgency :
  exists m1 m2 m3 m5,
  forall style adapt,
    lookup style_adaptations style = Some adapt ->
    let short := list_contains time ["1小时以下"; "1-2小时"] in
    let low := list_contains level ["零基础"; "初级"] in
    let urgent := String.eqb urgency "紧急" in
    let trail :=
      ([m1; m2; m3; ("🎨 **风格适配**: 检测到" ++ style ++ "学习偏好")%string]
         ++ (if urgent then [m5] else []))%list in
    analyze_body time level budget urgency style (mkFrame [] []) =
    Ok ((recommendation_of
           (if urgent then "强化训练" else if short then "微学习" else "系统学习")
           (if low then "分层教学" else "项目实践")
           (if budget <? 300 then "免费资源"
            else if budget <? 1000 then "付费课程" else "定制方案"),
         60 + 5 * ((if short then 0 else 1) + (if low then 0 else 1)
                   + (if budget <? 300 then 0 else if budget <? 1000 then 1 else 2)
                   + (if urgent then 1 else 0))
         - (if short && low
               && ((budget <? 300) && urgent
                   || negb (budget <? 300) && (budget <? 1000) && negb urgent)
            then 1 else 0),
         trail),
        mkFrame trail
          [if short then 0.7%float else 0.9%float;
           if low then 0.6%float else 0.8%float;
           if budget <? 300 then 0.5%float
           else if budget <? 1000 then 0.7%float else 0.9%float;
           if urgent then 0.8%float else 0.6%float]).
Proof.
  unfold analyze_body, time_analysis, level_analysis, budget_analysis,
    urgency_analysis, style_adaptation, getitem.
  destruct (list_contains time _), (list_contains level _),
    (budget <? 300), (budget <? 1000), (String.eqb urgency "紧急").
  all: do 3 eexists.
  all: first [ exists ""; intros style adapt H; cbv zeta;
               unfold bind, lift; rewrite H; vm_compute; reflexivity
             | eexists; intros style adapt H; cbv zeta;
               unfold bind, lift; rewrite H; vm_compute; reflexivity ].
Qed.

Lemma style_options_dec (style : string) :
  {In style style_options} + {~ In style style_options}.
Proof. apply in_dec. exact string_dec. Qed.

(** ** [analyze_learning_path] on arbitrary arguments *)

(** X1.  Whatever the time, level and urgency strings and whatever the
    integer budget (also outside the side bar's options, negative or above
    2000), the call returns exactly when the style is one of the four keys
    of [style_adaptations], and a returned confidence is always between 60
    and 85. *)
Theorem analyze_returns_iff_style_known time level budget urgency style :
  ((exists r, analyze_learning_path time level budget urgency style = Ok r)
   <-> In style style_options) /\
  (forall recommendation confidence reasoning,
      analyze_learning_path time level budget urgency style
      = Ok (recommendation, confidence, reasoning) ->
      60 <= confidence <= 85).
Proof.
  unfold analyze_learning_path.
  destruct (style_options_dec style) as [Hin | Hnot].
  - destruct (style_known style Hin) as [adapt Hadapt].
    destruct (analyze_body_by_tests time level budget urgency)
      as (m1 & m2 & m3 & m5 & Hrun).
    rewrite (Hrun style adapt Hadapt). cbv zeta. split.
    + split; [intros _; exact Hin | intros _; eexists; reflexivity].
    + intros r c e H.
      destruct (list_contains time _), (list_contains level _),
        (budget <? 300), (budget <? 1000), (String.eqb urgency "紧急");
        vm_compute in H; injection H as _ <- _; lia.
  - rewrite analyze_body_raises by exact Hnot. split.
    + split; [intros [r H]; discriminate H | intros Hin; contradiction].
    + intros r c e H. discriminate H.
Qed.

(** X2.  On a known style the returned label and confidence are these
    functions of the rules' tests: the base method is 强化训练 when the
    urgency is 紧急, else 微学习 for the two short time options and 系统学习
    for any other time; the knowledge tag is 分层教学 for the two low levels
    and 项目实践 for any other level; the budget tag follows the band; and
    the confidence is 60 plus 5 for each of: a time that is not short, a
    level that is not low, each budget band above the first, urgency 紧急 --
    less 1 when time is short, level is low and either the budget is below
    300 with urgency 紧急 or the budget is in the middle band with another
    urgency (the float64 sum then falls just below 2.6). *)
Theorem analyze_label_and_confidence_by_tests time level budget urgency style :
  In style style_options ->
  let short := list_contains time ["1小时以下"; "1-2小时"] in
  let low := list_contains level ["零基础"; "初级"] in
  let urgent := String.eqb urgency "紧急" in
  exists reasoning,
    analyze_learning_path time level budget urgency style =
    Ok (recommendation_of
          (if urgent then "强化训练" else if short then "微学习" else "系统学习")
          (if low then "分层教学" else "项目实践")
          (if budget <? 300 then "免费资源"
           else if budget <? 1000 then "付费课程" else "定制方案"),
        60 + 5 * ((if short then 0 else 1) + (if low then 0 else 1)
                  + (if budget <? 300 then 0 else if budget <? 1000 then 1 else 2)
                  + (if urgent then 1 else 0))
        - (if short && low
              && ((budget <? 300) && urgent
                  || negb (budget <? 300) && (budget <? 1000) && negb urgent)
           then 1 else 0),
        reasoning).
Proof.
  intros Hin. cbv zeta.
  destruct (style_known style Hin) as [adapt Hadapt].
  destruct (analyze_body_by_tests time level budget urgency)
    as (m1 & m2 & m3 & m5 & Hrun).
  unfold analyze_learning_path. rewrite (Hrun style adapt Hadapt). cbv zeta.
  eexists. reflexivity.
Qed.

Lemma analyze_label_and_confidence_by_tests_witness :
  In "听觉型" style_options /\
  exists reasoning,
    analyze_learning_path "1-2小时" "初级" 500 "中等" "听觉型"
    = Ok ("微学习 + 分层教学 + 付费课程", 64, reasoning).
Proof.
  assert (H : In "听觉型" style_options) by (simpl; auto).
  split; [exact H|].
  exact (analyze_label_and_confidence_by_tests
           "1-2小时" "初级" 500 "中等" "听觉型" H).
Defined.

(** X3.  On a known style the reasoning trail has five lines when the
    urgency is 紧急 and four otherwise, its fourth line is the style line
    built around the style name, and four scores are collected in both
    cases: a non-urgent call adds a score for the urgency but no line. *)
Theorem reasoning_trail_shape time level budget urgency style :
  In style style_options ->
  exists recommendation confidence reasoning collected,
    analyze_learning_path time level budget urgency style
    = Ok (recommendation, confidence, reasoning) /\
    collected_scores time level budget urgency style = Ok collected /\
    List.length reasoning = (if String.eqb urgency "紧急" then 5 else 4)%nat /\
    nth_error reasoning 3
    = Some ("🎨 **风格适配**: 检测到" ++ style ++ "学习偏好") /\
    List.length collected = 4%nat.
Proof.
  intros Hin.
  destruct (style_known style Hin) as [adapt Hadapt].
  destruct (analyze_body_by_tests time level budget urgency)
    as (m1 & m2 & m3 & m5 & Hrun).
  unfold analyze_learning_path, collected_scores.
  rewrite (Hrun style adapt Hadapt). cbv zeta.
  do 4 eexists. split; [reflexivity|]. split; [reflexivity|].
  destruct (String.eqb urgency "紧急"); repeat split; reflexivity.
Qed.

Lemma reasoning_trail_shape_witness :
  In "动手型" style_options /\
  exists recommendation confidence reasoning collected,
    analyze_learning_path "2-4小时" "中级" 800 "宽松" "动手型"
    = Ok (recommendation, confidence, reasoning) /\
    collected_scores "2-4小时" "中级" 800 "宽松" "动手型" = Ok collected /\
    List.length reasoning = 4%nat /\
    nth_error reasoning 3 = Some "🎨 **风格适配**: 检测到动手型学习偏好" /\
    List.length collected = 4%nat.
Proof.
  assert (H : In "动手型" style_options) by (simpl; auto).
  split; [exact H|].
  exact (reasoning_trail_shape "2-4小时" "中级" 800 "宽松" "动手型" H).
Defined.

(** X4.  The style does not influence the decision: two calls that differ
    only in the style, both known, return the same label and the same
    confidence, and reasoning trails of the same length that agree on every
    line but the fourth. *)
Theorem style_changes_only_its_line time level budget urgency style1 style2 :
  In style1 style_options -> In style2 style_options ->
  exists recommendation confidence reasoning1 reasoning2,
    analyze_learning_path time level budget urgency style1
    = Ok (recommendation, confidence, reasoning1) /\
    analyze_learning_path time level budget urgency style2
    = Ok (recommendation, confidence, reasoning2) /\
    List.length reasoning1 = List.length reasoning2 /\
    (forall i, i <> 3%nat -> nth_error reasoning1 i = nth_error reasoning2 i).
Proof.
  intros Hin1 Hin2.
  destruct (style_known style1 Hin1) as [adapt1 Hadapt1].
  destruct (style_known style2 Hin2) as [adapt2 Hadapt2].
  destruct (analyze_body_by_tests time level budget urgency)
    as (m1 & m2 & m3 & m5 & Hrun).
  unfold analyze_learning_path.
  rewrite (Hrun style1 adapt1 Hadapt1), (Hrun style2 adapt2 Hadapt2). cbv zeta.
  do 4 eexists. split; [reflexivity|]. split; [reflexivity|].
  split.
  - destruct (String.eqb urgency "紧急"); reflexivity.
  - intros i Hi.
    destruct i as [|[|[|[|i]]]]; try reflexivity.
    now destruct Hi.
Qed.

Lemma style_changes_only_its_line_witness :
  In "视觉型" style_options /\ In "阅读型" style_options /\
  exists recommendation confidence reasoning1 reasoning2,
    analyze_learning_path "4小时以上" "零基础" 1200 "紧急" "视觉型"
    = Ok (recommendation, confidence, reasoning1) /\
    analyze_learning_path "4小时以上" "零基础" 1200 "紧急" "阅读型"
    = Ok (recommendation, confidence, reasoning2) /\
    List.length reasoning1 = List.length reasoning2 /\
    (forall i, i <> 3%nat -> nth_error reasoning1 i = nth_error reasoning2 i).
Proof.
  assert (H1 : In "视觉型" style_options) by (simpl; auto).
  assert (H2 : In "阅读型" style_options) by (simpl; auto 10).
  split; [exact H1|]. split; [exact H2|].
  exact (style_changes_only_its_line
           "4小时以上" "零基础" 1200 "紧急" "视觉型" "阅读型" H1 H2).
Defined.

(** X5.  The call sees its first four arguments only through the rules'
    tests: two calls on the same style whose times are both short or both
    not, whose levels are both low or both not, whose budgets lie in the
    same band and whose urgencies are both 紧急 or both not, have the same
    outcome, returned triple or exception.  So 2-4小时 and 4小时以上, 中级 and
    高级, 宽松 and 中等 are never told apart. *)
Theorem analyze_depends_on_tests_only
        time1 level1 budget1 urgency1 time2 level2 budget2 urgency2 style :
  list_contains time1 ["1小时以下"; "1-2小时"]
  = list_contains time2 ["1小时以下"; "1-2小时"] ->
  list_contains level1 ["零基础"; "初级"]
  = list_contains level2 ["零基础"; "初级"] ->
  (budget1 <? 300) = (budget2 <? 300) ->
  (budget1 <? 1000) = (budget2 <? 1000) ->
  String.eqb urgency1 "紧急" = String.eqb urgency2 "紧急" ->
  analyze_learning_path time1 level1 budget1 urgency1 style
  = analyze_learning_path time2 level2 budget2 urgency2 style.
Proof.
  intros Ht Hl Hb1 Hb2 Hu.
  unfold analyze_learning_path, analyze_body,
    time_analysis, level_analysis, budget_analysis, urgency_analysis.
  rewrite Ht, Hl, Hb1, Hb2, Hu. reflexivity.
Qed.

Lemma analyze_depends_on_tests_only_witness :
  analyze_learning_path "2-4小时" "中级" 300 "宽松" "视觉型"
  = analyze_learning_path "4小时以上" "高级" 999 "中等" "视觉型".
Proof.
  exact (analyze_depends_on_tests_only
           "2-4小时" "中级" 300 "宽松" "4小时以上" "高级" 999 "中等" "视觉型"
           eq_refl eq_refl eq_refl eq_refl eq_refl).
Defined.

(** X6.  A larger budget never lowers the confidence: for the same time,
    level, urgency and known style, and any two integer budgets in
    increasing order, both calls return and the second confidence is at
    least the first. *)
Theorem confidence_monotone_in_budget time level budget1 budget2 urgency style :
  In style style_options ->
  budget1 <= budget2 ->
  exists r1 c1 e1 r2 c2 e2,
    analyze_learning_path time level budget1 urgency style = Ok (r1, c1, e1) /\
    analyze_learning_path time level budget2 urgency style = Ok (r2, c2, e2) /\
    c1 <= c2.
Proof.
  intros Hin Hle.
  destruct (style_known style Hin) as [adapt Hadapt].
  destruct (analyze_body_by_tests time level budget1 urgency)
    as (m1 & m2 & m3 & m5 & Hrun1).
  destruct (analyze_body_by_tests time level budget2 urgency)
    as (n1 & n2 & n3 & n5 & Hrun2).
  unfold analyze_learning_path.
  rewrite (Hrun1 style adapt Hadapt), (Hrun2 style adapt Hadapt). cbv zeta.
  do 6 eexists. split; [reflexivity|]. split; [reflexivity|].
  destruct (list_contains time _), (list_contains level _),
    (String.eqb urgency "紧急");
    destruct (Z.ltb_spec budget1 300), (Z.ltb_spec budget1 1000),
      (Z.ltb_spec budget2 300), (Z.ltb_spec budget2 1000);
    cbn [andb orb negb]; lia.
Qed.

Lemma confidence_monotone_in_budget_witness :
  In "阅读型" style_options /\ 299 <= 300 /\
  exists r1 c1 e1 r2 c2 e2,
    analyze_learning_path "1小时以下" "零基础" 299 "紧急" "阅读型" = Ok (r1, c1, e1) /\
    analyze_learning_path "1小时以下" "零基础" 300 "紧急" "阅读型" = Ok (r2, c2, e2) /\
    c1 <= c2.
Proof.
  assert (H : In "阅读型" style_options) by (simpl; auto 10).
  assert (Hle : 299 <= 300) by lia.
  split; [exact H|]. split; [exact Hle|].
  exact (confidence_monotone_in_budget
           "1小时以下" "零基础" 299 300 "紧急" "阅读型" H Hle).
Defined.

Lemma list_contains_false (x : string) (l options : list string) :
  incl l options -> ~ In x options -> list_contains x l = false.
Proof.
  intros Hincl Hnot. unfold list_contains.
  apply not_true_is_false. intros H.
  apply existsb_exists in H. destruct H as (y & Hy & Heq).
  apply String.eqb_eq in Heq. subst y. apply Hnot, Hincl, Hy.
Qed.

(** X13.  Arguments outside the offered options are not rejected but take
    the rules' else branches: a time that is none of the four options is
    treated exactly like 4小时以上, a level that is none of the four like
    高级, and an urgency that is none of the three like 宽松, whatever the
    other arguments are. *)
Theorem unknown_options_take_else_branch time level budget urgency style :
  (~ In time time_options ->
   analyze_learning_path time level budget urgency style
   = analyze_learning_path "4小时以上" level budget urgency style) /\
  (~ In level level_options ->
   analyze_learning_path time level budget urgency style
   = analyze_learning_path time "高级" budget urgency style) /\
  (~ In urgency urgency_options ->
   analyze_learning_path time level budget urgency style
   = analyze_learning_path time level budget "宽松" style).
Proof.
  unfold analyze_learning_path, analyze_body.
  split; [|split]; intros Hnot.
  - unfold time_analysis.
    rewrite (list_contains_false time _ time_options);
      [reflexivity | | exact Hnot].
    intros x Hx. simpl in Hx |- *. tauto.
  - unfold level_analysis.
    rewrite (list_contains_false level _ level_options);
      [reflexivity | | exact Hnot].
    intros x Hx. simpl in Hx |- *. tauto.
  - unfold urgency_analysis.
    destruct (String.eqb_spec urgency "紧急") as [-> | _]; [|reflexivity].
    exfalso. apply Hnot. simpl. tauto.
Qed.

Lemma unknown_options_take_else_branch_witness :
  ~ In "3小时" time_options /\
  analyze_learning_path "3小时" "初级" 100 "紧急" "视觉型"
  = analyze_learning_path "4小时以上" "初级" 100 "紧急" "视觉型".
Proof.
  assert (H : ~ In "3小时" time_options).
  { simpl. intros [H|[H|[H|[H|[]]]]]; discriminate H. }
  split; [exact H|].
  exact (proj1 (unknown_options_take_else_branch
                  "3小时" "初级" 100 "紧急" "视觉型") H).
Defined.

(** ** [calculate_expected_effectiveness] on arbitrary strings *)

Lemma string_app_assoc (a b c : string) : (a ++ b) ++ c = a ++ (b ++ c).
Proof.
  induction a as [|x a IH]; simpl; [reflexivity | now rewrite IH].
Qed.

Lemma occurs_trans (key s t : string) :
  occurs key s -> occurs s t -> occurs key t.
Proof.
  intros (p1 & q1 & ->) (p2 & q2 & ->).
  exists (p2 ++ p1), (q1 ++ q2).
  now rewrite !string_app_assoc.
Qed.

(** X7.  Whatever the string, the result is one of 70, 80, 85 and 90: the
    table's 65 is never returned and nothing exceeds 90. *)
Theorem effectiveness_values (method : string) :
  In (calculate_expected_effectiveness method) [70; 80; 85; 90].
Proof.
  pose proof (loop_lower_bound method effectiveness_scores 70) as Hlow.
  fold (calculate_expected_effectiveness method) in Hlow.
  destruct (loop_attained method effectiveness_scores 70)
    as [E | (key & score & Hin & _ & E)];
    fold (calculate_expected_effectiveness method) in E.
  - rewrite E. simpl. auto.
  - rewrite E in *. simpl in Hin.
    repeat match goal with
           | H : _ \/ _ |- _ => destruct H as [H | H]
           | H : (_, _) = (_, _) |- _ => injection H as _ <-
           | H : False |- _ => destruct H
           end; simpl; auto 10; lia.
Qed.

(** X8.  The result grows with the text: if one string occurs inside
    another, the effectiveness of the longer one is at least that of the
    shorter one. *)
Theorem effectiveness_monotone_in_containment (s t : string) :
  occurs s t ->
  calculate_expected_effectiveness s <= calculate_expected_effectiveness t.
Proof.
  intros Hst.
  destruct (loop_attained s effectiveness_scores 70)
    as [E | (key & score & Hin & Hc & E)];
    fold (calculate_expected_effectiveness s) in E; rewrite E.
  - apply loop_lower_bound.
  - apply (loop_upper_bound t effectiveness_scores 70 key score Hin).
    apply str_contains_iff_occurs.
    apply (occurs_trans key s t); [|exact Hst].
    apply str_contains_iff_occurs. exact Hc.
Qed.

Lemma effectiveness_monotone_in_containment_witness :
  occurs "分层教学" "微学习 + 分层教学 + 免费资源" /\
  calculate_expected_effectiveness "分层教学"
  <= calculate_expected_effectiveness "微学习 + 分层教学 + 免费资源".
Proof.
  assert (H : occurs "分层教学" "微学习 + 分层教学 + 免费资源")
    by (exists "微学习 + ", " + 免费资源"; reflexivity).
  split; [exact H|].
  exact (effectiveness_monotone_in_containment
           "分层教学" "微学习 + 分层教学 + 免费资源" H).
Defined.

(** ** What [main] shows *)

(** X9.  On a known style [main] obtains its three metrics, and the
    effectiveness shown next to the recommendation is 90 when the urgency
    is 紧急 or the budget is at least 1000, else 85 when the time is not one
    of the two short options or the level is not one of the two low ones,
    else 80; the default 70 is never shown. *)
Theorem main_effectiveness_by_tests time level budget urgency style :
  In style style_options ->
  exists recommendation confidence,
    main_metrics time level budget urgency style =
    Ok (recommendation, confidence,
        if String.eqb urgency "紧急" || negb (budget <? 1000) then 90
        else if negb (list_contains time ["1小时以下"; "1-2小时"])
                || negb (list_contains level ["零基础"; "初级"]) then 85
        else 80).
Proof.
  intros Hin.
  destruct (style_known style Hin) as [adapt Hadapt].
  destruct (analyze_body_by_tests time level budget urgency)
    as (m1 & m2 & m3 & m5 & Hrun).
  unfold main_metrics, analyze_learning_path.
  rewrite (Hrun style adapt Hadapt). cbv zeta.
  destruct (list_contains time _), (list_contains level _),
    (String.eqb urgency "紧急");
    destruct (Z.ltb_spec budget 300), (Z.ltb_spec budget 1000);
    try lia; do 2 eexists; vm_compute; reflexivity.
Qed.

Lemma main_effectiveness_by_tests_witness :
  In "听觉型" style_options /\
  exists recommendation confidence,
    main_metrics "1小时以下" "初级" 999 "中等" "听觉型"
    = Ok (recommendation, confidence, 80).
Proof.
  assert (H : In "听觉型" style_options) by (simpl; auto).
  split; [exact H|].
  exact (main_effectiveness_by_tests "1小时以下" "初级" 999 "中等" "听觉型" H).
Defined.

(** ** The detailed report *)

(** X10.  The report's budget text and the budget rule use the same bands:
    for every integer budget the rule's tag and [get_budget_analysis] both
    pick the first case below 300, the second from 300 to 999 and the third
    from 1000 on. *)
Theorem report_budget_band_matches_rule (budget : Z) (fr : frame) :
  exists tag fr',
    budget_analysis budget fr = Ok (tag, fr') /\
    ((budget < 300 /\ tag = "免费资源" /\
      get_budget_analysis budget
      = "预算有限，但有很多优质免费资源可用，如开源教程、公开课等") \/
     (300 <= budget < 1000 /\ tag = "付费课程" /\
      get_budget_analysis budget
      = "预算适中，可以选择性购买关键课程，结合免费资源使用") \/
     (1000 <= budget /\ tag = "定制方案" /\
      get_budget_analysis budget
      = "预算充足，可以考虑高端定制服务，获得个性化指导")).
Proof.
  unfold budget_analysis, get_budget_analysis.
  destruct (Z.ltb_spec budget 300); [|destruct (Z.ltb_spec budget 1000)];
    do 2 eexists; (split; [reflexivity|]).
  - left. auto.
  - right. left. auto.
  - right. right. auto.
Qed.


(** X12.  When [main] gets as far as the report, the style row never shows
    the generic text: [analyze_learning_path] has returned, so the style is
    one of the four keys and its row carries that style's own text, although
    [get_style_analysis] has a default for any other string. *)
Theorem main_report_style_row_specific
        time level budget urgency style metrics rows :
  main_values time level budget urgency style = Ok (metrics, rows) ->
  In style style_options /\
  List.length rows = 5%nat /\
  exists text,
    nth_error rows 3 = Some (mkCondition "🎨 风格条件" style text) /\
    text = get_style_analysis style /\
    text <> "学习风格分析".
Proof.
  unfold main_values, main_metrics, analyze_learning_path. intros H.
  destruct (style_options_dec style) as [Hin | Hnot].
  - split; [exact Hin|].
    destruct (analyze_body time level budget urgency style (mkFrame [] []))
      as [[[[r c] e] fr] | ex]; [|discriminate H].
    injection H as _ <-.
    split; [reflexivity|].
    eexists. split; [reflexivity|]. split; [reflexivity|].
    simpl in Hin.
    repeat (destruct Hin as [<- | Hin]; [vm_compute; discriminate|]).
    destruct Hin.
  - rewrite analyze_body_raises in H by exact Hnot. discriminate H.
Qed.

Lemma main_report_style_row_specific_witness :
  exists metrics rows,
    main_values "2-4小时" "中级" 500 "中等" "动手型" = Ok (metrics, rows) /\
    In "动手型" style_options /\
    List.length rows = 5%nat /\
    exists text,
      nth_error rows 3 = Some (mkCondition "🎨 风格条件" "动手型" text) /\
      text = get_style_analysis "动手型" /\
      text <> "学习风格分析".
Proof.
  eexists. eexists.
  assert (H : main_values "2-4小时" "中级" 500 "中等" "动手型"
              = Ok ("系统学习 + 项目实践 + 付费课程", 75, 85,
                    show_detailed_analysis_conditions
                      "2-4小时" "中级" 500 "中等" "动手型"))
    by (vm_compute; reflexivity).
  split; [exact H|].
  exact (main_report_style_row_specific _ _ _ _ _ _ _ H).
Defined.
